(** * xair.events / xair.uevents: the layered event dispatcher

    A shallow embedding of the two implementations of the event bus of
    xair-remote, [src/xair/events.py] and [src/xair/uevents.py]:
    the [Event] record, the [on_event] handler binding, and the
    [EventDispatcher] with [push_handlers], [pop_handlers] and [dispatch].

    The two files share most of their text.  What they share is modelled
    once; what differs (where a binding is stored, how an attribute of an
    event is looked up, which exceptions [dispatch] catches) lives in the
    modules [Events] and [UEvents]. *)

From Stdlib Require Import ZArith String.
From stdpp Require Import base option list countable gmap strings.

Local Open Scope string_scope.
Local Open Scope list_scope.
Local Open Scope nat_scope.

(** ** Python values *)

(** Plain data carried by events: [None], strings, integers and tuples.
    On these Python's [==] is structural equality and all of them are
    hashable, so they can key a [dict]. *)
#[warnings="-register-all"]
Inductive data : Type :=
  | DNone
  | DStr (s : string)
  | DInt (z : Z)
  | DTuple (l : list data).

Section data_ind.
Variable P : data → Prop.
Hypothesis HNone : P DNone.
Hypothesis HStr : ∀ s, P (DStr s).
Hypothesis HInt : ∀ z, P (DInt z).
Hypothesis HTuple : ∀ l, Forall P l → P (DTuple l).

Fixpoint data_nested_ind (d : data) : P d :=
  match d with
  | DNone => HNone
  | DStr s => HStr s
  | DInt z => HInt z
  | DTuple l =>
      HTuple l
        ((fix go (l : list data) : Forall P l :=
            match l with
            | [] => Forall_nil_2 P
            | x :: l' => Forall_cons_2 P x l' (data_nested_ind x) (go l')
            end) l)
  end.
End data_ind.

Fixpoint data_enc (d : data) : gen_tree (string + Z) :=
  match d with
  | DNone => GenNode 0 []
  | DStr s => GenLeaf (inl s)
  | DInt z => GenLeaf (inr z)
  | DTuple l => GenNode 1 (map data_enc l)
  end.

Fixpoint data_dec (t : gen_tree (string + Z)) : data :=
  match t with
  | GenLeaf (inl s) => DStr s
  | GenLeaf (inr z) => DInt z
  | GenNode 0 _ => DNone
  | GenNode _ ts => DTuple (map data_dec ts)
  end.

Lemma data_dec_enc (d : data) : data_dec (data_enc d) = d.
Proof.
  induction d as [| s | z | l IH] using data_nested_ind; simpl; try done.
  f_equal. induction IH as [| x l Hx _ IHl]; simpl; [done |].
  by rewrite Hx, IHl.
Qed.

#[global] Instance data_eq_dec : EqDecision data.
Proof.
  intros x y. destruct (decide (data_enc x = data_enc y)) as [Heq | Hne].
  - left. rewrite <- (data_dec_enc x), <- (data_dec_enc y). by rewrite Heq.
  - right. intros ->. by apply Hne.
Defined.

#[global] Instance data_countable : Countable data :=
  inj_countable' data_enc data_dec data_dec_enc.

(** A class that is [Event] or derives from it.  The only class attribute
    the dispatcher reads is [type]; [Event] itself declares [type = None]. *)
Record eclass : Type := EClass { cls_id : nat; cls_type : data }.

(** An instance of [Event] (a [dict] subclass): its class and its items. *)
Record event : Type := MkEvent { ev_class : eclass; ev_items : gmap string data }.

(** Object identities of functions and of other heap objects. *)
Definition oid := nat.

Inductive value : Type :=
  | VData (d : data)
  | VFunc (f : oid)                  (* a function object *)
  | VMethod (self : oid) (f : oid)   (* the bound method self.f *)
  | VObj (o : oid)                   (* any other object *)
  | VClass (c : eclass)              (* Event or a subclass, as a class object *)
  | VEvent (e : event).              (* an instance of Event or of a subclass *)

#[global] Instance eclass_eq_dec : EqDecision eclass.
Proof. solve_decision. Defined.
#[global] Instance event_eq_dec : EqDecision event.
Proof. solve_decision. Defined.
#[global] Instance value_eq_dec : EqDecision value.
Proof. solve_decision. Defined.

#[global] Instance eclass_countable : Countable eclass :=
  inj_countable' (λ c, (cls_id c, cls_type c)) (λ p, EClass p.1 p.2)
    (λ c, match c with EClass _ _ => eq_refl end).

#[global] Instance event_countable : Countable event :=
  inj_countable' (λ e, (ev_class e, ev_items e)) (λ p, MkEvent p.1 p.2)
    (λ e, match e with MkEvent _ _ => eq_refl end).

Definition value_enc (v : value)
  : data + (oid + (oid * oid + (oid + (eclass + event)))) :=
  match v with
  | VData d => inl d
  | VFunc f => inr (inl f)
  | VMethod s f => inr (inr (inl (s, f)))
  | VObj o => inr (inr (inr (inl o)))
  | VClass c => inr (inr (inr (inr (inl c))))
  | VEvent e => inr (inr (inr (inr (inr e))))
  end.

Definition value_dec (x : data + (oid + (oid * oid + (oid + (eclass + event)))))
  : value :=
  match x with
  | inl d => VData d
  | inr (inl f) => VFunc f
  | inr (inr (inl (s, f))) => VMethod s f
  | inr (inr (inr (inl o))) => VObj o
  | inr (inr (inr (inr (inl c)))) => VClass c
  | inr (inr (inr (inr (inr e)))) => VEvent e
  end.

#[global] Instance value_countable : Countable value :=
  inj_countable' value_enc value_dec
    (λ v, match v with
          | VData _ | VFunc _ | VMethod _ _ | VObj _ | VClass _ | VEvent _ => eq_refl
          end).

(** ** Truthiness, exceptions, outcomes *)

(** [bool(x)] for the values above.  Functions, bound methods, classes and
    objects without [__bool__]/[__len__] are true; an [Event] is a [dict]
    and is true when it has an item. *)
Definition truthy_data (d : data) : bool :=
  match d with
  | DNone => false
  | DStr s => negb (String.eqb s "")
  | DInt z => negb (Z.eqb z 0)
  | DTuple l => match l with [] => false | _ => true end
  end.

Definition truthy (v : value) : bool :=
  match v with
  | VData d => truthy_data d
  | VEvent e => negb (bool_decide (ev_items e = ∅))
  | VFunc _ | VMethod _ _ | VObj _ | VClass _ => true
  end.

(** [x is not None] *)
Definition is_not_None (d : data) : bool :=
  match d with DNone => false | _ => true end.

(** A [dict] subclass instance is unhashable; everything else here hashes. *)
Definition hashable (v : value) : bool :=
  match v with VEvent _ => false | _ => true end.

Definition isinstance_Event (v : value) : bool :=
  match v with VEvent _ => true | _ => false end.

Definition ismethod (v : value) : bool :=
  match v with VMethod _ _ => true | _ => false end.

Inductive exn : Type :=
  | AssertionError
  | IndexError
  | TypeError
  | KeyError (k : string)
  | AttributeError (name : string)
  | UserError (n : nat)        (* any other class derived from Exception *)
  | KeyboardInterrupt
  | SystemExit
  | GeneratorExit.

(** [isinstance(x, Exception)]: the last three derive from [BaseException]
    only. *)
Definition is_Exception (x : exn) : bool :=
  match x with
  | KeyboardInterrupt | SystemExit | GeneratorExit => false
  | _ => true
  end.

Inductive outcome (A : Type) : Type :=
  | Returned (a : A)
  | Raised (x : exn).
Arguments Returned {A} a.
Arguments Raised {A} x.

#[global] Instance exn_eq_dec : EqDecision exn.
Proof. solve_decision. Defined.
#[global] Instance outcome_eq_dec `{EqDecision A} : EqDecision (outcome A).
Proof. solve_decision. Defined.

(** ** Attribute lookup on an event instance *)

(** What a name resolves to in the class namespace (the MRO of the class of
    the instance). *)
Inductive cattr : Type :=
  | CPlain (d : data)   (* a plain class attribute, such as [type = None] *)
  | CNonData            (* a function or method descriptor: no [__set__] *)
  | CDataDescr.         (* a data descriptor, such as [__class__] *)

(** The result of [e.name]. *)
Inductive attrval : Type :=
  | AData (d : data)
  | ABound (name : string)   (* a method bound to the instance *)
  | ADescr (name : string).  (* whatever the data descriptor yields *)

#[global] Instance attrval_eq_dec : EqDecision attrval.
Proof. solve_decision. Defined.

(** The items a [dict] receives from keyword arguments, written in call
    order (a later write to the same key replaces the earlier one). *)
Definition dict_update {V} (m : gmap string V) (kwargs : list (string * V))
  : gmap string V :=
  foldl (λ m kv, <[kv.1 := kv.2]> m) m kwargs.

(** [e[name]] *)
Definition getitem (e : event) (name : string) : outcome data :=
  match ev_items e !! name with
  | Some v => Returned v
  | None => Raised (KeyError name)
  end.

(** [object.__getattribute__]: a data descriptor of the class wins, then the
    instance [__dict__], then any other class attribute.  [None] stands for
    the [AttributeError] of a failed lookup. *)
Definition object_getattribute (class_attr : string → option cattr)
    (inst_dict : gmap string data) (name : string) : option attrval :=
  match class_attr name with
  | Some CDataDescr => Some (ADescr name)
  | ca =>
      match inst_dict !! name with
      | Some v => Some (AData v)
      | None =>
          match ca with
          | Some (CPlain d) => Some (AData d)
          | Some CNonData => Some (ABound name)
          | _ => None
          end
      end
  end.

(** ** The interpreter state the two modules act on *)

(** A handler layer: one [dict] from event type to handler. *)
Abbreviation layer := (gmap value value).

(** The [_handler_stack] attribute of a dispatcher: absent until the first
    [push_handlers] or [dispatch], then a list whose last element is the top
    layer. *)
Abbreviation dispatcher := (option (list layer)).

(** [getattr(self, '_handler_stack', [])] *)
Definition layers (d : dispatcher) : list layer := default [] d.

(** Attributes of heap objects, and the module-level table
    [_handler_to_event] of [uevents.py]. *)
Record world : Type := World {
  obj_attrs : gmap value (gmap string value);
  handler_to_event : gmap value value
}.

#[global] Instance world_eq_dec : EqDecision world.
Proof. solve_decision. Defined.

(** What [on_event] decorates: a function, a bound method, or another
    callable object. *)
Inductive callable : Type :=
  | CFunc (f : oid)
  | CMethod (self : oid) (f : oid)
  | CObj (o : oid).

Definition callable_value (c : callable) : value :=
  match c with
  | CFunc f => VFunc f
  | CMethod s f => VMethod s f
  | CObj o => VObj o
  end.

(** What happened during one [dispatch], in order. *)
Inductive entry : Type :=
  | Called (handler : value) (e : event)   (* handler(event) was entered *)
  | Logged (handler : value) (x : exn).    (* log.exception / log.error *)

#[global] Instance entry_eq_dec : EqDecision entry.
Proof. solve_decision. Defined.

(** Number of times [handler] was invoked with [e]. *)
Definition invocations (handler : value) (e : event) (tr : list entry) : nat :=
  length (filter (λ x, x = Called handler e) tr).

(** ** What both files share *)

Section Stack.
(** [event.type] on an instance, as the file at hand evaluates it. *)
Variable event_type : event → data.

(** [is_event]: a subclass of [Event], or an instance whose [type] is not
    [None] ([and] binds tighter than [or]). *)
Definition is_event_with (v : value) : bool :=
  match v with
  | VClass _ => true
  | VEvent e => is_not_None (event_type e)
  | _ => false
  end.

(** [event.type] for a value that passed [is_event]. *)
Definition type_attr (v : value) : value :=
  match v with
  | VClass c => VData (cls_type c)
  | VEvent e => VData (event_type e)
  | _ => v
  end.

(** [event.type if is_event(event) else event] *)
Definition normalize (v : value) : value :=
  if is_event_with v then type_attr v else v.

(** [self._handler_stack[-1][event] = method]; an unhashable key raises. *)
Definition setitem_top (s : list layer) (k v : value)
  : list layer * option exn :=
  if hashable k then (alter (<[k := v]>) (pred (length s)) s, None)
  else (s, Some TypeError).

(** A [for] loop whose body may raise: runs the body on each element in
    turn and stops at the first exception. *)
Fixpoint for_each {A} (body : A → list layer → list layer * option exn)
    (xs : list A) (s : list layer) : list layer * option exn :=
  match xs with
  | [] => (s, None)
  | x :: xs' =>
      match body x s with
      | (s', None) => for_each body xs' s'
      | r => r
      end
  end.

Section Push.
(** The members a positional argument contributes, and the binding that
    [on_event] recorded for a member; both differ between the files. *)
Variable members : value → outcome (list (string * value)).
Variable handler_for : value → outcome value.

(** Body of [for name, method in members]. *)
Definition register (nm : string * value) (s : list layer)
  : list layer * option exn :=
  if String.prefix "__" nm.1 then (s, None)
  else
    match handler_for nm.2 with
    | Raised x => (s, Some x)
    | Returned ev =>
        if truthy ev then
          let ev' :=
            match ev with
            | VEvent e =>
                if is_not_None (event_type e) then VData (event_type e)
                else ev
            | _ => ev
            end in
          setitem_top s ev' nm.2
        else (s, None)
    end.

(** Body of [for obj in args]. *)
Definition register_source (obj : value) (s : list layer)
  : list layer * option exn :=
  match members obj with
  | Raised x => (s, Some x)
  | Returned ms => for_each register ms s
  end.

(** Body of [for event, handler in kwargs.items()]; the keys of
    [kwargs] are strings. *)
Definition register_keyword (kv : string * value) (s : list layer)
  : list layer * option exn :=
  setitem_top s (normalize (VData (DStr kv.1))) kv.2.

Definition push_handlers_with (d : dispatcher) (args : list value)
    (kwargs : list (string * value)) : dispatcher * option exn :=
  let s := layers d ++ [∅] in
  match for_each register_source args s with
  | (s', None) =>
      let r := for_each register_keyword kwargs s' in (Some r.1, r.2)
  | (s', Some x) => (Some s', Some x)
  end.
End Push.

(** [getattr(self, '_handler_stack', []).pop()] *)
Definition pop_handlers (d : dispatcher) : dispatcher * outcome layer :=
  match last (layers d) with
  | Some top => (Some (removelast (layers d)), Returned top)
  | None => (d, Raised IndexError)
  end.

Section Dispatch.
(** State of everything a handler can reach: the caller's own data and,
    through the dispatcher object, the list of layers. *)
Context {U : Type}.
Abbreviation state := (U * list layer)%type.

(** [handler(event)] *)
Variable call : value → event → state → outcome value * state.
(** Which exceptions the [except] clause of [dispatch] catches. *)
Variable catches : exn → bool.

Definition emit (pre : list entry) (r : option exn * state * list entry)
  : option exn * state * list entry :=
  (r.1.1, r.1.2, pre ++ r.2).

(** [for handlers in reversed(self._handler_stack)], entered with the
    iterator at index [i - 1] of the live list: the iterator yields the
    element at its index while the index is in range, and steps down. *)
Fixpoint search (i : nat) (ev : event) (st : state)
  : option exn * state * list entry :=
  match i with
  | 0 => (None, st, [])
  | S j =>
      match st.2 !! j with
      | None => (None, st, [])
      | Some handlers =>
          match handlers !! VData (event_type ev) with
          | None => search j ev st
          | Some handler =>
              if truthy handler then
                match call handler ev st with
                | (Returned r, st') =>
                    if truthy r then (None, st', [Called handler ev])
                    else emit [Called handler ev] (search j ev st')
                | (Raised x, st') =>
                    if catches x then
                      emit [Called handler ev; Logged handler x]
                        (search j ev st')
                    else (Some x, st', [Called handler ev])
                end
              else search j ev st
          end
      end
  end.

(** [for event in events] *)
Fixpoint dispatch_events (events : list value) (st : state)
  : option exn * state * list entry :=
  match events with
  | [] => (None, st, [])
  | v :: rest =>
      match v with
      | VEvent ev =>
          match search (length st.2) ev st with
          | (None, st', tr) => emit tr (dispatch_events rest st')
          | r => r
          end
      | _ => (Some AssertionError, st, [])
      end
  end.

Definition dispatch_with (d : dispatcher) (events : list value) (u : U)
  : option exn * (U * dispatcher) * list entry :=
  let r := dispatch_events events (u, layers d) in
  (r.1.1, (r.1.2.1, Some r.1.2.2), r.2).
End Dispatch.
End Stack.

(** ** events.py *)

Module Events.
(** [class Event(Bunch, metaclass=Registrable): type = None] *)
Definition Event_class : eclass := EClass 0 DNone.

(** Constructing an event of class [c] from keyword arguments:
    [Bunch.__init__] fills the [dict] and
    then makes it the instance [__dict__] ([self.__dict__ = self]). *)
Definition Event (c : eclass) (kwargs : list (string * data)) : event :=
  MkEvent c (dict_update ∅ kwargs).

Section Attr.
(** What [dict] and [object] contribute to the class namespace. *)
Variable inherited : string → option cattr.

Definition class_attr (c : eclass) (name : string) : option cattr :=
  if decide (name = "type") then Some (CPlain (cls_type c))
  else if decide (name = "event_types") then Some CNonData
  else if decide (name = "__init__") then Some CNonData
  else inherited name.

(** [e.name]: the instance [__dict__] is the [dict] itself. *)
Definition getattr (e : event) (name : string) : outcome attrval :=
  match object_getattribute (class_attr (ev_class e)) (ev_items e) name with
  | Some a => Returned a
  | None => Raised (AttributeError name)
  end.
End Attr.

(** [Registrable.registry]: an [OrderedDict] from type tag to class, as the
    list of its items in insertion order (keys without repetition). *)
Abbreviation registry := (list (data * eclass)).

(** [registry[k] = c]: a key already present keeps its place and takes
    the new value, a new key goes to the end. *)
Fixpoint od_set (r : registry) (k : data) (c : eclass) : registry :=
  match r with
  | [] => [(k, c)]
  | (k', c') :: r' =>
      if decide (k' = k) then (k, c) :: r' else (k', c') :: od_set r' k c
  end.

(** [registry.get(k)] *)
Fixpoint od_get (r : registry) (k : data) : option eclass :=
  match r with
  | [] => None
  | (k', c') :: r' => if decide (k' = k) then Some c' else od_get r' k
  end.

(** The class object that a [class] statement with base [base] builds:
    [getattr(cls, 'type')] is the [type] of the class body if it has one,
    and the inherited one otherwise. *)
Definition new_class (id : nat) (base : eclass) (own_type : option data) : eclass :=
  EClass id (default (cls_type base) own_type).

(** [Registrable.__init__], run when the class object is created. *)
Definition Registrable_init (r : registry) (cls : eclass) : registry :=
  let type_ := cls_type cls in
  if truthy_data type_ then od_set r type_ cls else r.

(** [Event.event_types()]: [cls.registry.keys()] *)
Definition event_types (r : registry) : list data := r.*1.

(** [event.type] *)
Definition event_type (e : event) : data :=
  match ev_items e !! "type" with
  | Some v => v
  | None => cls_type (ev_class e)
  end.

Definition is_event : value → bool := is_event_with event_type.

(** [on_event(event)(func)]: [func._handler_for = ...; return func].  A
    bound method takes no new attribute. *)
Definition on_event (event : value) (func : callable) (w : world)
  : outcome value * world :=
  let target := normalize event_type event in
  match func with
  | CMethod _ _ => (Raised (AttributeError "_handler_for"), w)
  | _ =>
      let f := callable_value func in
      let attrs := default ∅ (obj_attrs w !! f) in
      (Returned f,
       World (<[f := <["_handler_for" := target]> attrs]> (obj_attrs w))
             (handler_to_event w))
  end.

(** The attribute [_handler_for] of a value, if it has one: a bound method
    shows the attributes of its function, an event its items. *)
Definition handler_for_attr (w : world) (v : value) : option value :=
  match v with
  | VData _ => None
  | VMethod _ f => obj_attrs w !! VFunc f ≫= (.!! "_handler_for")
  | VEvent e => VData <$> ev_items e !! "_handler_for"
  | _ => obj_attrs w !! v ≫= (.!! "_handler_for")
  end.

Section Dispatcher.
(** [inspect.getmembers(obj)]: the (name, value) pairs of [obj], sorted
    by name. *)
Variable getmembers : value → list (string * value).
Variable w : world.

(** [members] of one positional argument of [push_handlers]. *)
Definition members (obj : value) : outcome (list (string * value)) :=
  Returned
    (if bool_decide (is_Some (handler_for_attr w obj)) then [("", obj)]
     else filter (λ nv, ismethod nv.2 = true) (getmembers obj)).

(** [getattr(method, '_handler_for', None)] *)
Definition handler_for (method : value) : outcome value :=
  Returned (default (VData DNone) (handler_for_attr w method)).

Definition push_handlers
  : dispatcher → list value → list (string * value) → dispatcher * option exn :=
  push_handlers_with event_type members handler_for.
End Dispatcher.

(** The [except:] of [dispatch] is bare: it catches everything. *)
Definition dispatch {U} (call : value → event → U * list layer → outcome value * (U * list layer))
  : dispatcher → list value → U → option exn * (U * dispatcher) * list entry :=
  dispatch_with event_type call (λ _, true).
End Events.

(** ** uevents.py *)

Module UEvents.
(** [class Event(dict): type = None] *)
Definition Event_class : eclass := EClass 0 DNone.

(** Constructing an event of class [c] from keyword arguments:
    [__init__] passes them to [self.update].  The instance
    [__dict__] stays empty. *)
Definition Event (c : eclass) (kwargs : list (string * data)) : event :=
  MkEvent c (dict_update ∅ kwargs).

Section Attr.
Variable inherited : string → option cattr.

Definition class_attr (c : eclass) (name : string) : option cattr :=
  if decide (name = "type") then Some (CPlain (cls_type c))
  else if decide (name = "__init__") then Some CNonData
  else if decide (name = "__getattr__") then Some CNonData
  else inherited name.

(** [e.name]: the normal lookup, and [__getattr__] ([self[name]]) only
    when that fails. *)
Definition getattr (e : event) (name : string) : outcome attrval :=
  match object_getattribute (class_attr (ev_class e)) ∅ name with
  | Some a => Returned a
  | None =>
      match getitem e name with
      | Returned v => Returned (AData v)
      | Raised x => Raised x
      end
  end.
End Attr.

(** [event.type] *)
Definition event_type (e : event) : data := cls_type (ev_class e).

Definition is_event : value → bool := is_event_with event_type.

(** [on_event(event)(func)]: [_handler_to_event[func] = ...; return func] *)
Definition on_event (event : value) (func : callable) (w : world)
  : outcome value * world :=
  let target := normalize event_type event in
  let f := callable_value func in
  (Returned f, World (obj_attrs w) (<[f := target]> (handler_to_event w))).

Section Dispatcher.
Variable getmembers : value → list (string * value).
Variable w : world.

(** [obj in _handler_to_event] hashes [obj]. *)
Definition members (obj : value) : outcome (list (string * value)) :=
  if hashable obj then
    Returned
      (if bool_decide (is_Some (handler_to_event w !! obj)) then [("", obj)]
       else getmembers obj)
  else Raised TypeError.

(** [_handler_to_event.get(method)] hashes [method]. *)
Definition handler_for (method : value) : outcome value :=
  if hashable method then
    Returned (default (VData DNone) (handler_to_event w !! method))
  else Raised TypeError.

Definition push_handlers
  : dispatcher → list value → list (string * value) → dispatcher * option exn :=
  push_handlers_with event_type members handler_for.
End Dispatcher.

(** [except Exception as exc:] *)
Definition dispatch {U} (call : value → event → U * list layer → outcome value * (U * list layer))
  : dispatcher → list value → U → option exn * (U * dispatcher) * list entry :=
  dispatch_with event_type call is_Exception.
End UEvents.

(** ** The bindings of a layer, as a list of writes *)

(** In-place writes to the top layer keep every layer below it. *)
Definition same_below (s s' : list layer) : Prop :=
  length s' = length s ∧ removelast s' = removelast s.

(** [L[k] = v] for each pair in turn. *)
Definition write_all (L : layer) (ws : list (value * value)) : layer :=
  foldl (λ L kv, <[kv.1 := kv.2]> L) L ws.

Section Bindings.
Variable event_type : event → data.
Variable members : value → outcome (list (string * value)).
Variable handler_for : value → outcome value.

(** The (key, handler) pair that [register] writes for a member, if it
    writes one. *)
Definition member_binding (nm : string * value) : option (value * value) :=
  if String.prefix "__" nm.1 then None
  else
    match handler_for nm.2 with
    | Returned (VEvent e) =>
        if truthy (VEvent e) then
          Some (if is_not_None (event_type e) then VData (event_type e)
                else VEvent e, nm.2)
        else None
    | Returned ev => if truthy ev then Some (ev, nm.2) else None
    | Raised _ => None
    end.

Definition source_bindings (obj : value) : list (value * value) :=
  match members obj with
  | Returned ms => omap member_binding ms
  | Raised _ => []
  end.

Definition positional_bindings (args : list value) : list (value * value) :=
  concat (map source_bindings args).

Definition keyword_bindings (kwargs : list (string * value))
  : list (value * value) :=
  map (λ kv, (normalize event_type (VData (DStr kv.1)), kv.2)) kwargs.
End Bindings.

(** ** Vocabulary of the properties *)

(** Handlers that leave the list of layers as they found it. *)
Definition frame {U} (call : value → event → U * list layer → outcome value * (U * list layer))
  : Prop :=
  ∀ h e st, (call h e st).2.2 = st.2.






(** Number of handler invocations recorded in a trace. *)
Definition is_call (x : entry) : bool :=
  match x with Called _ _ => true | Logged _ _ => false end.

Definition call_count (tr : list entry) : nat :=
  length (filter (λ x, is_call x = true) tr).





(** ** Concrete inputs: the objects of the [_test] functions *)

Module Sample.
(** [class KeyEvent(Event): type = 'key'] *)
Definition KeyEvent : eclass := EClass 1 (DStr "key").
(** A subclass declaring [type = 'click']. *)
Definition ClickEvent : eclass := EClass 2 (DStr "click").

Definition click : data := DStr "click".

(** [Event(type='click', pos=(23, 42))] and [Event(type='click', pos=(99, 66))] *)
Definition click_args1 : list (string * data) :=
  [("type", click); ("pos", DTuple [DInt 23; DInt 42])].
Definition click_args2 : list (string * data) :=
  [("type", click); ("pos", DTuple [DInt 99; DInt 66])].

(** The free functions [handle_click], [handle_key] and the methods of
    the [Handler] instance. *)
Definition handle_click : callable := CFunc 1.
Definition handle_key : callable := CFunc 2.
Definition Handler_handle_key : oid := 3.
Definition Handler_handle_click : oid := 4.
Definition handler_obj : oid := 10.

Definition getmembers (v : value) : list (string * value) :=
  match v with
  | VObj 10 =>
      [("__init__", VMethod 10 0);
       ("handle_click", VMethod 10 Handler_handle_click);
       ("handle_key", VMethod 10 Handler_handle_key)]
  | _ => []
  end.

(** Handlers as in [_test]: [Handler.handle_click] returns [True], the
    others return [None]. *)
Definition call_test (h : value) (e : event) (st : unit * list layer)
  : outcome value * (unit * list layer) :=
  match h with
  | VMethod 10 4 => (Returned (VData (DInt 1)), st)
  | _ => (Returned (VData DNone), st)
  end.

(** Every handler declines the event. *)
Definition call_decline (h : value) (e : event) (st : unit * list layer)
  : outcome value * (unit * list layer) :=
  (Returned (VData DNone), st).


Definition bind (t : data) (c : callable) : layer :=
  {[ VData t := callable_value c ]}.
End Sample.

(** * Properties *)

(** ** Building and removing layers *)

Section PushFacts.
Variable event_type : event → data.

Lemma same_below_refl s : same_below s s.
Proof. done. Qed.



Lemma alter_last_snoc (f : layer → layer) (s : list layer) (L : layer) :
  alter f (pred (length (s ++ [L]))) (s ++ [L]) = s ++ [f L].
Proof.
  rewrite length_app. simpl. replace (pred (length s + 1)) with (length s + 0) by lia.
  by rewrite alter_app_r.
Qed.


Lemma setitem_top_ok s L k v s' :
  setitem_top (s ++ [L]) k v = (s', None) → s' = s ++ [<[k := v]> L].
Proof.
  unfold setitem_top. destruct (hashable k); [| done].
  rewrite alter_last_snoc. by intros [= <-].
Qed.


(** A loop of writes that ends without an exception has performed the
    writes of its elements, in order. *)
Lemma for_each_writes {A} (body : A → list layer → list layer * option exn)
    (ws : A → list (value * value)) :
  (∀ x s L s', body x (s ++ [L]) = (s', None) → s' = s ++ [write_all L (ws x)]) →
  ∀ xs s L s',
    for_each body xs (s ++ [L]) = (s', None) →
    s' = s ++ [write_all L (concat (map ws xs))].
Proof.
  intros Hbody. induction xs as [| x xs IH]; intros s L s'; simpl.
  - by intros [= <-].
  - destruct (body x (s ++ [L])) as [s1 [e |]] eqn:Hx; [done |].
    apply Hbody in Hx as ->. intros Hrest. apply IH in Hrest as ->.
    unfold write_all. by rewrite foldl_app.
Qed.

Section WithSources.
Variable members : value → outcome (list (string * value)).
Variable handler_for : value → outcome value.




Lemma register_writes nm s L s' :
  register event_type handler_for nm (s ++ [L]) = (s', None) →
  s' = s ++ [write_all L (option_list (member_binding event_type handler_for nm))].
Proof.
  unfold register, member_binding. destruct (String.prefix _ _).
  { by intros [= <-]. }
  destruct (handler_for nm.2) as [ev | x]; [| done].
  destruct ev; (destruct (truthy _); [| by intros [= <-]]);
    intros H; by apply setitem_top_ok in H.
Qed.

Lemma register_source_writes obj s L s' :
  register_source event_type members handler_for obj (s ++ [L]) = (s', None) →
  s' = s ++ [write_all L (source_bindings event_type members handler_for obj)].
Proof.
  unfold register_source, source_bindings.
  destruct (members obj) as [ms | x]; [| done].
  intros H. eapply for_each_writes in H; [| apply register_writes].
  rewrite H. do 3 f_equal. clear. induction ms as [| m ms IH]; simpl; [done |].
  rewrite IH. by destruct (member_binding _ _ m).
Qed.

Lemma register_keyword_writes kv s L s' :
  register_keyword event_type kv (s ++ [L]) = (s', None) →
  s' = s ++ [write_all L [(normalize event_type (VData (DStr kv.1)), kv.2)]].
Proof. intros H. by apply setitem_top_ok in H. Qed.


(** When it returns, the new layer holds the positional bindings and
    then the keyword bindings, written in that order. *)
Lemma push_handlers_with_writes d args kwargs d' :
  push_handlers_with event_type members handler_for d args kwargs = (d', None) →
  layers d' = layers d ++
    [write_all ∅ (positional_bindings event_type members handler_for args
                  ++ keyword_bindings event_type kwargs)].
Proof.
  unfold push_handlers_with.
  destruct (for_each _ args _) as [s1 [x |]] eqn:H1; [done |].
  eapply for_each_writes in H1; [| apply register_source_writes]. subst s1.
  destruct (for_each _ kwargs _) as [s2 [x |]] eqn:H2; simpl; [done |].
  eapply for_each_writes in H2; [| apply register_keyword_writes].
  intros [= <-]. simpl. rewrite H2. unfold write_all, positional_bindings, keyword_bindings.
  rewrite foldl_app. do 3 f_equal.
  clear. induction kwargs as [| kv kws IH]; simpl; [done |]. by rewrite IH.
Qed.
End WithSources.

(** The last write to a key is the one that stays. *)
Lemma write_all_last L ws1 k v ws2 :
  k ∉ ws2.*1 → write_all L (ws1 ++ (k, v) :: ws2) !! k = Some v.
Proof.
  unfold write_all. rewrite foldl_app. simpl.
  generalize (foldl (λ L kv, <[kv.1 := kv.2]> L) L ws1). intros L1.
  revert L1. induction ws2 as [| [k' v'] ws2 IH] using rev_ind; intros L1 Hk; simpl.
  - by rewrite lookup_insert_eq.
  - rewrite foldl_app. simpl. rewrite fmap_app in Hk. simpl in Hk.
    apply not_elem_of_app in Hk as [Hk1 Hk2].
    apply not_elem_of_cons in Hk2 as [Hne _].
    rewrite lookup_insert_ne; [by apply IH | done].
Qed.

Lemma pop_handlers_snoc s L :
  pop_handlers (Some (s ++ [L])) = (Some s, Returned L).
Proof. unfold pop_handlers. simpl. by rewrite last_snoc, removelast_last. Qed.
End PushFacts.

(** ** Attribute access on events *)

Section AttrFacts.
Variable inherited : string → option cattr.

(** [event.type], as [dispatch] reads it, is what attribute lookup gives. *)
Lemma events_getattr_type e :
  Events.getattr inherited e "type" = Returned (AData (Events.event_type e)).
Proof.
  unfold Events.getattr, Events.event_type, object_getattribute, Events.class_attr.
  simpl. by destruct (ev_items e !! "type").
Qed.

Lemma uevents_getattr_type e :
  UEvents.getattr inherited e "type" = Returned (AData (UEvents.event_type e)).
Proof. done. Qed.

Lemma dict_update_last {V} (m : gmap string V) kw1 k v kw2 :
  k ∉ kw2.*1 → dict_update m (kw1 ++ (k, v) :: kw2) !! k = Some v.
Proof.
  unfold dict_update. rewrite foldl_app. simpl.
  generalize (foldl (λ m kv, <[kv.1 := kv.2]> m) m kw1). intros m1.
  revert m1. induction kw2 as [| [k' v'] kw2 IH] using rev_ind; intros m1 Hk; simpl.
  - by rewrite lookup_insert_eq.
  - rewrite foldl_app. simpl. rewrite fmap_app in Hk. simpl in Hk.
    apply not_elem_of_app in Hk as [Hk1 Hk2].
    apply not_elem_of_cons in Hk2 as [Hne _].
    rewrite lookup_insert_ne; [by apply IH | done].
Qed.

(** X13.  In [events.py] every field given to the constructor reads the
    same by item and by attribute, as long as the name is not one that
    [dict] or [object] reserve through a data descriptor. *)
Lemma events_field_both_ways c kw1 k v kw2 :
  k ∉ kw2.*1 →
  inherited k ≠ Some CDataDescr →
  let e := Events.Event c (kw1 ++ (k, v) :: kw2) in
  getitem e k = Returned v ∧ Events.getattr inherited e k = Returned (AData v).
Proof.
  intros Hk Hinh e.
  assert (ev_items e !! k = Some v) as Hitem by (by apply dict_update_last).
  unfold getitem, Events.getattr, object_getattribute. rewrite Hitem.
  split; [done |].
  unfold Events.class_attr. repeat case_decide; try done.
  by destruct (inherited k) as [[] |].
Qed.

(** In [uevents.py] the same holds only for names the class namespace
    does not know; a name it knows, such as [type], never reaches
    [__getattr__]. *)
Lemma uevents_field_both_ways c kw1 k v kw2 :
  k ∉ kw2.*1 →
  UEvents.class_attr inherited c k = None →
  let e := UEvents.Event c (kw1 ++ (k, v) :: kw2) in
  getitem e k = Returned v ∧ UEvents.getattr inherited e k = Returned (AData v).
Proof.
  intros Hk Hcls e.
  assert (ev_items e !! k = Some v) as Hitem by (by apply dict_update_last).
  unfold UEvents.getattr, object_getattribute, getitem.
  change (ev_class e) with c. by rewrite Hcls, lookup_empty, Hitem.
Qed.
End AttrFacts.

(** ** Walking the stack *)

Section DispatchFacts.
Variable event_type : event → data.
Context {U : Type}.
Variable call : value → event → U * list layer → outcome value * (U * list layer).
Variable catches : exn → bool.

Abbreviation search' := (search event_type call catches).
Abbreviation dispatch_events' := (dispatch_events event_type call catches).
Abbreviation dispatch' := (dispatch_with event_type call catches).

Lemma invocations_app h e tr1 tr2 :
  invocations h e (tr1 ++ tr2) = invocations h e tr1 + invocations h e tr2.
Proof. unfold invocations. by rewrite filter_app, length_app. Qed.







Lemma search_frame (Hframe : frame call) ev i st :
  (search' i ev st).1.2.2 = st.2.
Proof.
  revert st. induction i as [| j IH]; intros st; simpl; [done |].
  destruct (st.2 !! j) as [L |]; [| done].
  destruct (L !! VData (event_type ev)) as [h |]; [| apply IH].
  destruct (truthy h); [| apply IH].
  pose proof (Hframe h ev st) as Hst.
  destruct (call h ev st) as [[r | x] st']; simpl in Hst.
  - destruct (truthy r); simpl; [done |]. by rewrite IH.
  - destruct (catches x); simpl; [| done]. by rewrite IH.
Qed.

Lemma dispatch_events_frame (Hframe : frame call) evs st :
  (dispatch_events' evs st).1.2.2 = st.2.
Proof.
  revert st. induction evs as [| v evs IH]; intros st; simpl; [done |].
  destruct v; try done.
  pose proof (search_frame Hframe e (length st.2) st) as Hs.
  destruct (search' _ e st) as [[[x |] st'] tr]; simpl in *; [done |].
  by rewrite IH.
Qed.


(** [dispatch] of a single event is one walk from the top of the stack. *)
Lemma dispatch_single stk ev u :
  dispatch' (Some stk) [VEvent ev] u =
    ((search' (length stk) ev (u, stk)).1.1,
     ((search' (length stk) ev (u, stk)).1.2.1,
      Some (search' (length stk) ev (u, stk)).1.2.2),
     (search' (length stk) ev (u, stk)).2).
Proof.
  unfold dispatch_with. simpl.
  destruct (search' _ ev _) as [[[x |] st'] tr]; simpl; [done |].
  by rewrite app_nil_r.
Qed.

(** [dispatch] stops at the first argument that is not an [Event]: what
    was dispatched before it stays, nothing after it is looked at. *)
Lemma dispatch_events_invalid evs1 bad evs2 st :
  isinstance_Event bad = false →
  dispatch_events' (evs1 ++ bad :: evs2) st =
    let r := dispatch_events' evs1 st in
    (match r.1.1 with None => Some AssertionError | Some x => Some x end,
     r.1.2, r.2).
Proof.
  intros Hbad. revert st. induction evs1 as [| v evs1 IH]; intros st; simpl.
  - by destruct bad.
  - destruct v; try done.
    destruct (search' _ e st) as [[[x |] st'] tr]; simpl; [done |].
    rewrite IH. simpl. unfold emit. simpl.
    by destruct (dispatch_events' evs1 st') as [[[x |] st''] tr'].
Qed.







End DispatchFacts.

(** ** More on the walk: silence, sequencing, bounds *)

Section DispatchMore.
Variable event_type : event → data.
Context {U : Type}.
Variable call : value → event → U * list layer → outcome value * (U * list layer).
Variable catches : exn → bool.



Lemma dispatch_events_app evs1 evs2 (st : U * list layer) :
  dispatch_events event_type call catches (evs1 ++ evs2) st =
    match dispatch_events event_type call catches evs1 st with
    | (None, st1, tr1) =>
        emit tr1 (dispatch_events event_type call catches evs2 st1)
    | r => r
    end.
Proof.
  revert st. induction evs1 as [| v evs1 IH]; intros st; simpl.
  - by destruct (dispatch_events _ _ _ evs2 st) as [[r st'] tr].
  - destruct v; try done.
    destruct (search _ _ _ _ e st) as [[[x |] st'] tr]; [done |].
    rewrite IH.
    destruct (dispatch_events _ _ _ evs1 st') as [[[x |] st1] tr1]; [done |].
    unfold emit. simpl. by rewrite app_assoc.
Qed.

Lemma call_count_app tr1 tr2 :
  call_count (tr1 ++ tr2) = call_count tr1 + call_count tr2.
Proof. unfold call_count. by rewrite filter_app, length_app. Qed.

Lemma call_count_called h e tr :
  call_count (Called h e :: tr) = S (call_count tr).
Proof. unfold call_count. by rewrite filter_cons_True. Qed.

Lemma call_count_logged h x tr :
  call_count (Logged h x :: tr) = call_count tr.
Proof. unfold call_count. by rewrite filter_cons_False. Qed.

(** The walk enters at most one handler for each index it starts above,
    whatever the handlers do to the list meanwhile. *)
Lemma search_call_count ev i (st : U * list layer) :
  call_count (search event_type call catches i ev st).2 ≤ i.
Proof.
  revert st. induction i as [| j IH]; intros st; simpl; [done |].
  destruct (st.2 !! j) as [L |]; [| cbn; lia].
  destruct (L !! VData (event_type ev)) as [h |];
    [| specialize (IH st); lia].
  destruct (truthy h); [| specialize (IH st); lia].
  destruct (call h ev st) as [[r | x] st'].
  - destruct (truthy r); simpl.
    + rewrite call_count_called. cbn. lia.
    + rewrite call_count_called. specialize (IH st'). lia.
  - destruct (catches x); simpl.
    + rewrite call_count_called, call_count_logged. specialize (IH st'). lia.
    + rewrite call_count_called. cbn. lia.
Qed.

(** Every invocation of the walk passes the event being dispatched. *)
Lemma search_calls_event ev i (st : U * list layer) h e :
  Called h e ∈ (search event_type call catches i ev st).2 → e = ev.
Proof.
  revert st. induction i as [| j IH]; intros st; simpl.
  { by intros ?%elem_of_nil. }
  destruct (st.2 !! j) as [L |]; [| by intros ?%elem_of_nil].
  destruct (L !! VData (event_type ev)) as [h' |]; [| apply IH].
  destruct (truthy h'); [| apply IH].
  destruct (call h' ev st) as [[r | x] st'].
  - destruct (truthy r); simpl.
    + intros Hin%list_elem_of_singleton. by injection Hin.
    + intros [Hin | Hin]%elem_of_cons; [by injection Hin | by eapply IH].
  - destruct (catches x); simpl.
    + intros [Hin | Hin]%elem_of_cons; [by injection Hin |].
      apply elem_of_cons in Hin as [Hin | Hin]; [done | by eapply IH].
    + intros Hin%list_elem_of_singleton. by injection Hin.
Qed.

End DispatchMore.

(** ** Binding and registering *)

Lemma insert_top_empty (s : list layer) k v :
  alter (<[k := v]>) (pred (length (s ++ [∅]))) (s ++ [∅]) = s ++ [{[k := v]}].
Proof. rewrite alter_last_snoc. by rewrite insert_empty. Qed.

(** What the loop over the positional arguments does with one source that
    stands for itself and is bound to [tag]. *)
Lemma register_single_source event_type members handler_for (s : list layer) f tag :
  members f = Returned [("", f)] →
  handler_for f = Returned tag →
  for_each (register_source event_type members handler_for) [f] (s ++ [∅]) =
    if truthy tag then
      match tag with
      | VEvent e =>
          if is_not_None (event_type e)
          then (s ++ [{[VData (event_type e) := f]}], None)
          else (s ++ [∅], Some TypeError)
      | _ => (s ++ [{[tag := f]}], None)
      end
    else (s ++ [∅], None).
Proof.
  intros Hm Hh. simpl.
  unfold register_source. rewrite Hm. simpl. unfold register. simpl. rewrite Hh.
  destruct (truthy tag); [| done].
  unfold setitem_top.
  destruct tag; simpl; rewrite ?insert_top_empty; try done.
  destruct (is_not_None (event_type e)); simpl; by rewrite ?insert_top_empty.
Qed.









(** After [on_event(target)(f)], the callable [f] stands for itself as a
    source and carries the tag of the target. *)
Lemma events_bound_attr target c w :
  ismethod (callable_value c) = false →
  Events.handler_for_attr (Events.on_event target c w).2 (callable_value c)
  = Some (normalize Events.event_type target).
Proof.
  intros Hm. destruct c; try done;
    unfold Events.on_event, Events.handler_for_attr; cbv zeta; cbn [snd obj_attrs callable_value];
    rewrite lookup_insert_eq; simpl; by rewrite lookup_insert_eq.
Qed.

Lemma events_bound_source getmembers target c w :
  ismethod (callable_value c) = false →
  Events.members getmembers (Events.on_event target c w).2 (callable_value c)
  = Returned [("", callable_value c)]
  ∧ Events.handler_for (Events.on_event target c w).2 (callable_value c)
    = Returned (normalize Events.event_type target).
Proof.
  intros Hm. unfold Events.members, Events.handler_for.
  rewrite events_bound_attr by done. by rewrite bool_decide_eq_true_2.
Qed.

Lemma uevents_bound_source getmembers target c w :
  UEvents.members getmembers (UEvents.on_event target c w).2 (callable_value c)
  = Returned [("", callable_value c)]
  ∧ UEvents.handler_for (UEvents.on_event target c w).2 (callable_value c)
    = Returned (normalize UEvents.event_type target).
Proof.
  unfold UEvents.members, UEvents.handler_for, UEvents.on_event.
  cbv zeta. cbn [snd handler_to_event]. rewrite lookup_insert_eq.
  rewrite bool_decide_eq_true_2 by done. by destruct c.
Qed.

(** ** The registry of event classes *)

Lemma od_set_keys (r : Events.registry) k c :
  (Events.od_set r k c).*1 = if decide (k ∈ r.*1) then r.*1 else r.*1 ++ [k].
Proof.
  induction r as [| [k' c'] r IH].
  - rewrite decide_False; [done |]. by intros ?%elem_of_nil.
  - cbn [Events.od_set]. destruct (decide (k' = k)) as [-> | Hne].
    + rewrite decide_True; [done |]. by left.
    + rewrite !fmap_cons, IH. cbn [fst].
      destruct (decide (k ∈ r.*1)) as [Hin | Hnin].
      * rewrite decide_True; [done |]. by right.
      * rewrite decide_False; [done |].
        intros [? | ?]%elem_of_cons; congruence.
Qed.

Lemma od_get_set_eq (r : Events.registry) k c :
  Events.od_get (Events.od_set r k c) k = Some c.
Proof.
  induction r as [| [k' c'] r IH]; simpl.
  - by rewrite decide_True.
  - destruct (decide (k' = k)) as [-> | Hne]; simpl.
    + by rewrite decide_True.
    + by rewrite decide_False.
Qed.

Lemma od_get_set_ne (r : Events.registry) k k' c :
  k' ≠ k → Events.od_get (Events.od_set r k c) k' = Events.od_get r k'.
Proof.
  intros Hne. induction r as [| [k0 c0] r IH]; simpl.
  - by rewrite decide_False.
  - destruct (decide (k0 = k)) as [-> | Hne0]; simpl.
    + by rewrite !decide_False.
    + destruct (decide (k0 = k')); [done | apply IH].
Qed.

Lemma Registrable_init_keys (r : Events.registry) cls :
  NoDup (Events.event_types r) ∧ Forall (λ t, truthy_data t = true) (Events.event_types r) →
  NoDup (Events.event_types (Events.Registrable_init r cls))
  ∧ Forall (λ t, truthy_data t = true) (Events.event_types (Events.Registrable_init r cls)).
Proof.
  intros [Hnd Hall]. unfold Events.Registrable_init, Events.event_types in *.
  destruct (truthy_data (cls_type cls)) eqn:Ht; [| done].
  rewrite od_set_keys. destruct (decide _) as [Hin | Hin]; [done |]. split.
  - apply NoDup_app. split; [done |]. split; [| apply NoDup_singleton].
    intros x Hx ->%list_elem_of_singleton. done.
  - apply Forall_app. split; [done | by constructor].
Qed.

(** ** Facts about the sample handlers *)

Lemma frame_call_test : frame Sample.call_test.
Proof.
  intros h e st. unfold Sample.call_test.
  by repeat (match goal with |- context [match ?x with _ => _ end] => destruct x end).
Defined.

Lemma frame_call_decline : frame Sample.call_decline.
Proof. by intros h e st. Defined.



(** Closed goals built from decidable equalities are settled by running
    the decision procedure. *)
Ltac by_eval := cbv zeta; apply (bool_decide_unpack _); vm_compute; exact I.

(** ** The claims *)

(** C5.  [pop_handlers] on a dispatcher without layers (the attribute
    absent, or the list empty) raises [IndexError] and leaves the
    dispatcher as it was; on a stack with a top layer it removes that layer
    and returns it. *)
Theorem pop_handlers_empty_or_top :
  pop_handlers None = (None, Raised IndexError)
  ∧ pop_handlers (Some []) = (Some [], Raised IndexError)
  ∧ ∀ s L, pop_handlers (Some (s ++ [L])) = (Some s, Returned L).
Proof. repeat split. apply pop_handlers_snoc. Qed.




(** C10.  If no handler changes the list of layers, [dispatch] leaves it
    as it was, for any dispatcher, any arguments and any outcome of the
    call: the same layers, in the same order, each with the same bindings;
    in [events.py] and in [uevents.py]. *)
Theorem dispatch_keeps_stack {U}
    (call : value → event → U * list layer → outcome value * (U * list layer))
    (d : dispatcher) (events : list value) (u : U) :
  frame call →
  layers (Events.dispatch call d events u).1.2.2 = layers d
  ∧ layers (UEvents.dispatch call d events u).1.2.2 = layers d.
Proof.
  intros Hframe. unfold Events.dispatch, UEvents.dispatch, dispatch_with. simpl.
  split; by rewrite dispatch_events_frame.
Qed.

(** C10, at the dispatch of [_test]: a key event and a click event on two
    layers. *)
Lemma dispatch_keeps_stack_witness :
  let d := Some [Sample.bind Sample.click Sample.handle_click;
                 Sample.bind (DStr "key") Sample.handle_key] in
  let events := [VEvent (Events.Event Sample.KeyEvent [("key", DStr "a")]);
                 VEvent (Events.Event Events.Event_class Sample.click_args1)] in
  frame Sample.call_test
  ∧ layers (Events.dispatch Sample.call_test d events ()).1.2.2 = layers d
  ∧ layers (UEvents.dispatch Sample.call_test d events ()).1.2.2 = layers d.
Proof.
  split; [exact frame_call_test |].
  exact (dispatch_keeps_stack Sample.call_test _ _ () frame_call_test).
Defined.

(** C6, as stated, fails: of [dispatch(e1, 'oops', e2)] only [e1] reaches
    its handler; the [AssertionError] ends the call and [e2] is never
    dispatched. *)
Lemma dispatch_invalid_event_counterexample :
  let d := Some [Sample.bind Sample.click Sample.handle_click] in
  let e1 := Events.Event Events.Event_class Sample.click_args1 in
  let e2 := Events.Event Events.Event_class Sample.click_args2 in
  let r := Events.dispatch Sample.call_decline d
             [VEvent e1; VData (DStr "oops"); VEvent e2] () in
  r.1.1 = Some AssertionError
  ∧ r.2 = [Called (VFunc 1) e1]
  ∧ invocations (VFunc 1) e2 r.2 = 0.
Proof. by_eval. Qed.

(** C6, amended.  [dispatch] with an argument that is not an [Event] does
    exactly what it does on the arguments before it, and then raises: the
    same handlers run, the same state results, and the call ends with
    [AssertionError] (or with the exception that already ended it before);
    no argument after the invalid one is dispatched. *)
Theorem dispatch_invalid_event {U}
    (call : value → event → U * list layer → outcome value * (U * list layer))
    (d : dispatcher) (before : list value) (bad : value) (after : list value) (u : U) :
  isinstance_Event bad = false →
  (let r := Events.dispatch call d before u in
   Events.dispatch call d (before ++ bad :: after) u
   = (match r.1.1 with None => Some AssertionError | Some x => Some x end, r.1.2, r.2))
  ∧
  (let r := UEvents.dispatch call d before u in
   UEvents.dispatch call d (before ++ bad :: after) u
   = (match r.1.1 with None => Some AssertionError | Some x => Some x end, r.1.2, r.2)).
Proof.
  intros Hbad. unfold Events.dispatch, UEvents.dispatch, dispatch_with.
  split; by rewrite (dispatch_events_invalid _ _ _ _ _ _ _ Hbad).
Qed.

Lemma dispatch_invalid_event_witness :
  let d := Some [Sample.bind Sample.click Sample.handle_click] in
  let e1 := VEvent (Events.Event Events.Event_class Sample.click_args1) in
  let e2 := VEvent (Events.Event Events.Event_class Sample.click_args2) in
  isinstance_Event (VData (DStr "oops")) = false
  ∧ Events.dispatch Sample.call_decline d ([e1] ++ VData (DStr "oops") :: [e2]) ()
    = (match (Events.dispatch Sample.call_decline d [e1] ()).1.1 with
       | None => Some AssertionError
       | Some x => Some x
       end,
       (Events.dispatch Sample.call_decline d [e1] ()).1.2,
       (Events.dispatch Sample.call_decline d [e1] ()).2).
Proof.
  split; [reflexivity |].
  apply (dispatch_invalid_event Sample.call_decline). reflexivity.
Defined.



(** C2, at the event [Event(type='click', pos=(23, 42))] that the [_test]
    of [uevents.py] builds: the item [type] holds ['click'], but [e.type]
    finds the class attribute [type = None] first and never reaches
    [__getattr__]; [dispatch] therefore looks for handlers of [None] and
    the click handler is not invoked. *)
Theorem uevents_type_attribute_shadowed :
  let e := UEvents.Event UEvents.Event_class Sample.click_args1 in
  getitem e "type" = Returned Sample.click
  ∧ (∀ inherited, UEvents.getattr inherited e "type" = Returned (AData DNone))
  ∧ UEvents.event_type e = DNone
  ∧ (UEvents.dispatch Sample.call_decline
       (Some [Sample.bind Sample.click Sample.handle_click]) [VEvent e] ()).2 = [].
Proof.
  cbv zeta. split; [by_eval |]. split; [intros inherited; reflexivity |].
  split; [reflexivity | by_eval].
Qed.










(** ** Further properties of the dispatcher *)



(** X2.  [dispatch] handles its arguments one after the other: dispatching
    two lists in one call is dispatching the first and, unless that ended
    with an exception, dispatching the second on the state the first left;
    the handlers run in that order. *)
Theorem dispatch_sequential {U}
    (call : value → event → U * list layer → outcome value * (U * list layer))
    (d : dispatcher) (first second : list value) (u : U) :
  (let r1 := Events.dispatch call d first u in
   Events.dispatch call d (first ++ second) u =
     match r1.1.1 with
     | Some x => r1
     | None =>
         let r2 := Events.dispatch call r1.1.2.2 second r1.1.2.1 in
         (r2.1.1, r2.1.2, r1.2 ++ r2.2)
     end)
  ∧
  (let r1 := UEvents.dispatch call d first u in
   UEvents.dispatch call d (first ++ second) u =
     match r1.1.1 with
     | Some x => r1
     | None =>
         let r2 := UEvents.dispatch call r1.1.2.2 second r1.1.2.1 in
         (r2.1.1, r2.1.2, r1.2 ++ r2.2)
     end).
Proof.
  split; unfold Events.dispatch, UEvents.dispatch, dispatch_with; cbv zeta;
    rewrite dispatch_events_app;
    (destruct (dispatch_events _ _ _ first _) as [[[x |] [u1 s1]] tr1]; [done |]);
    unfold emit; simpl;
    by destruct (dispatch_events _ _ _ second _) as [[r2 [u2 s2]] tr2].
Qed.



(** X4.  For one event, [dispatch] enters at most as many handlers as the
    stack had layers when the walk began, and passes each of them that
    event; this holds even for handlers that push or pop layers while the
    walk is under way. *)
Theorem dispatch_one_call_per_layer {U}
    (call : value → event → U * list layer → outcome value * (U * list layer))
    (stk : list layer) (ev : event) (u : U) :
  (let tr := (Events.dispatch call (Some stk) [VEvent ev] u).2 in
   call_count tr ≤ length stk ∧ ∀ h e, Called h e ∈ tr → e = ev)
  ∧
  (let tr := (UEvents.dispatch call (Some stk) [VEvent ev] u).2 in
   call_count tr ≤ length stk ∧ ∀ h e, Called h e ∈ tr → e = ev).
Proof.
  split; unfold Events.dispatch, UEvents.dispatch; rewrite dispatch_single;
    cbn [fst snd]; (split; [apply search_call_count |]);
    intros h e; apply search_calls_event.
Qed.




(** X7.  A binding whose tag counts as false ([None], the empty string)
    is passed over: [push_handlers(f)] then pushes an empty layer and
    returns normally.  A keyword binding is written under its name
    whatever the name, the empty one included. *)
Theorem push_falsy_tag_ignored getmembers (target : value) (c : callable)
    (w : world) (d : dispatcher) (h : value) :
  let f := callable_value c in
  (ismethod f = false → truthy (normalize Events.event_type target) = false →
   Events.push_handlers getmembers (Events.on_event target c w).2 d [f] []
   = (Some (layers d ++ [∅]), None))
  ∧ (truthy (normalize UEvents.event_type target) = false →
     UEvents.push_handlers getmembers (UEvents.on_event target c w).2 d [f] []
     = (Some (layers d ++ [∅]), None))
  ∧ Events.push_handlers getmembers w d [] [("", h)]
    = (Some (layers d ++ [{[VData (DStr "") := h]}]), None)
  ∧ UEvents.push_handlers getmembers w d [] [("", h)]
    = (Some (layers d ++ [{[VData (DStr "") := h]}]), None).
Proof.
  intros f. repeat split.
  - intros Hm Hfalsy.
    destruct (events_bound_source getmembers target c w Hm) as [Hmem Hfor].
    unfold Events.push_handlers, push_handlers_with.
    by rewrite (register_single_source _ _ _ _ f _ Hmem Hfor), Hfalsy.
  - intros Hfalsy.
    destruct (uevents_bound_source getmembers target c w) as [Hmem Hfor].
    unfold UEvents.push_handlers, push_handlers_with.
    by rewrite (register_single_source _ _ _ _ f _ Hmem Hfor), Hfalsy.
  - unfold Events.push_handlers, push_handlers_with. simpl.
    unfold register_keyword, setitem_top. simpl. by rewrite insert_top_empty.
  - unfold UEvents.push_handlers, push_handlers_with. simpl.
    unfold register_keyword, setitem_top. simpl. by rewrite insert_top_empty.
Qed.

(** X7, with [on_event('')]. *)
Lemma push_falsy_tag_ignored_witness :
  Events.push_handlers Sample.getmembers
    (Events.on_event (VData (DStr "")) Sample.handle_click (World ∅ ∅)).2
    (Some [Sample.bind Sample.click Sample.handle_key]) [VFunc 1] []
  = (Some ([Sample.bind Sample.click Sample.handle_key] ++ [∅]), None).
Proof.
  exact (proj1 (push_falsy_tag_ignored Sample.getmembers (VData (DStr ""))
                  Sample.handle_click (World ∅ ∅)
                  (Some [Sample.bind Sample.click Sample.handle_key]) (VData DNone))
               eq_refl eq_refl).
Defined.



(** X9.  In [events.py] a method marked with [on_event] is found through
    the object: if [obj] is not itself marked, one of its members is the
    bound method [obj.f] under a name that does not start with two
    underscores, the function [f] carries the tag [t] (a non-empty
    string), and no member after it in name order is bound to [t] as
    well, then the layer that [push_handlers(obj)] pushes maps [t] to the
    bound method. *)
Theorem events_push_registers_method getmembers (w : world) (d d' : dispatcher)
    (o f : oid) (name t : string) (before after : list (string * value)) :
  Events.handler_for_attr w (VObj o) = None →
  getmembers (VObj o) = before ++ (name, VMethod o f) :: after →
  String.prefix "__" name = false →
  Events.handler_for_attr w (VFunc f) = Some (VData (DStr t)) →
  t ≠ "" →
  (∀ nm v, nm ∈ after → Events.handler_for_attr w nm.2 = Some v →
           ∃ t', v = VData (DStr t') ∧ t' ≠ t) →
  Events.push_handlers getmembers w d [VObj o] [] = (d', None) →
  ∃ L, layers d' = layers d ++ [L] ∧ L !! VData (DStr t) = Some (VMethod o f).
Proof.
  intros Hobj Hms Hname Hf Ht Hafter Hpush.
  apply push_handlers_with_writes in Hpush. eexists. split; [exact Hpush |].
  unfold positional_bindings, keyword_bindings. simpl. rewrite !app_nil_r.
  unfold source_bindings, Events.members. rewrite Hobj.
  rewrite bool_decide_eq_false_2 by (by intros [? ?]).
  rewrite Hms, filter_app, filter_cons_True by done.
  rewrite omap_app. simpl.
  assert (member_binding Events.event_type (Events.handler_for w) (name, VMethod o f)
          = Some (VData (DStr t), VMethod o f)) as ->.
  { unfold member_binding, Events.handler_for. simpl. rewrite Hname.
    change (obj_attrs w !! VFunc f ≫= lookup "_handler_for")
      with (Events.handler_for_attr w (VFunc f)).
    rewrite Hf. simpl. by destruct t. }
  apply write_all_last.
  intros Hin. apply list_elem_of_fmap in Hin as [[k h] [Hk Hin]]. simpl in Hk. subst k.
  apply list_elem_of_omap in Hin as (nm & Hnm & Hbind).
  apply list_elem_of_filter in Hnm as [_ Hnm].
  unfold member_binding, Events.handler_for in Hbind.
  destruct (String.prefix "__" nm.1); [done |].
  destruct (Events.handler_for_attr w nm.2) as [v |] eqn:Hv; simpl in Hbind; [| done].
  destruct (Hafter nm v Hnm Hv) as (t' & -> & Hne).
  destruct (truthy (VData (DStr t'))); [| done]. congruence.
Qed.

(** X9, at the [Handler] object of [_test]: its [handle_click]. *)
Lemma events_push_registers_method_witness :
  let w := (Events.on_event (VData Sample.click) (CFunc Sample.Handler_handle_click)
              (Events.on_event (VData (DStr "key")) (CFunc Sample.Handler_handle_key)
                 (World ∅ ∅)).2).2 in
  let d' : dispatcher :=
    Some [ {[ VData (DStr "key") := VMethod 10 3; VData Sample.click := VMethod 10 4 ]} ] in
  Events.push_handlers Sample.getmembers w None [VObj 10] [] = (d', None)
  ∧ ∃ L, layers d' = layers None ++ [L] ∧ L !! VData (DStr "click") = Some (VMethod 10 4).
Proof.
  intros w d'.
  assert (Events.push_handlers Sample.getmembers w None [VObj 10] [] = (d', None)) as Hpush
    by (subst w d'; by_eval).
  split; [exact Hpush |].
  apply (events_push_registers_method Sample.getmembers w None d' 10 4 "handle_click" "click"
           [("__init__", VMethod 10 0)] [("handle_key", VMethod 10 3)]);
    try (subst w; by_eval); try done.
  intros nm v Hnm. apply list_elem_of_singleton in Hnm as ->.
  intros Hv. exists "key". split; [| done].
  assert (Events.handler_for_attr w (VMethod 10 3) = Some (VData (DStr "key"))) as Hkey
    by (subst w; by_eval).
  change (Events.handler_for_attr w (VMethod 10 3) = Some v) in Hv.
  rewrite Hkey in Hv. by injection Hv as <-.
Defined.





(** X12.  A name that is neither an item of the event nor known to its
    class: item access raises [KeyError]; attribute access raises
    [AttributeError] in [events.py], but [KeyError] in [uevents.py], whose
    [__getattr__] lets the failed item lookup through. *)
Theorem missing_attribute_errors (inherited : string → option cattr)
    (e : event) (name : string) :
  ev_items e !! name = None →
  getitem e name = Raised (KeyError name)
  ∧ (Events.class_attr inherited (ev_class e) name = None →
     Events.getattr inherited e name = Raised (AttributeError name))
  ∧ (UEvents.class_attr inherited (ev_class e) name = None →
     UEvents.getattr inherited e name = Raised (KeyError name)).
Proof.
  intros Hitem. unfold getitem. rewrite Hitem. split; [done |].
  split; intros Hcls.
  - unfold Events.getattr, object_getattribute. by rewrite Hcls, Hitem.
  - unfold UEvents.getattr, object_getattribute, getitem.
    by rewrite Hcls, lookup_empty, Hitem.
Qed.

(** X12, reading [pos] from a key event. *)
Lemma missing_attribute_errors_witness :
  let e := UEvents.Event Sample.KeyEvent [("key", DStr "a")] in
  getitem e "pos" = Raised (KeyError "pos")
  ∧ (Events.class_attr (λ _, None) (ev_class e) "pos" = None →
     Events.getattr (λ _, None) e "pos" = Raised (AttributeError "pos"))
  ∧ (UEvents.class_attr (λ _, None) (ev_class e) "pos" = None →
     UEvents.getattr (λ _, None) e "pos" = Raised (KeyError "pos")).
Proof.
  intros e. apply (missing_attribute_errors (λ _, None) e "pos").
  subst e. by_eval.
Defined.

(** X13, at [Event(type='click', pos=(23, 42))], read at [pos]. *)
Lemma events_field_both_ways_witness :
  let e := Events.Event Events.Event_class
             ([("type", Sample.click)] ++ ("pos", DTuple [DInt 23; DInt 42]) :: []) in
  getitem e "pos" = Returned (DTuple [DInt 23; DInt 42])
  ∧ Events.getattr (λ _, None) e "pos" = Returned (AData (DTuple [DInt 23; DInt 42])).
Proof.
  apply (events_field_both_ways (λ _, None) Events.Event_class
           [("type", Sample.click)] "pos" (DTuple [DInt 23; DInt 42]) []).
  - by intros ?%elem_of_nil.
  - done.
Defined.

(** X14.  However many event classes are declared, [Event.event_types()]
    lists no tag twice and lists only tags that count as true: [Event]
    itself, with [type = None], and classes with an empty tag are not in
    the registry. *)
Theorem event_types_unique (classes : list eclass) :
  let r := foldl Events.Registrable_init [] classes in
  NoDup (Events.event_types r)
  ∧ Forall (λ t, truthy_data t = true) (Events.event_types r).
Proof.
  cbv zeta. induction classes as [| cls classes IH] using rev_ind.
  - split; [apply NoDup_nil_2 | constructor].
  - rewrite foldl_app. simpl. by apply Registrable_init_keys.
Qed.

(** X15.  Declaring a class whose [type] counts as true makes the
    registry map that tag to the class and leaves every other tag as it
    was; a tag that is new goes to the end of [event_types()], a tag
    declared before keeps its place.  A class whose [type] counts as false
    leaves the registry alone. *)
Theorem registry_declaration (r : Events.registry) (cls : eclass) :
  let t := cls_type cls in
  let r' := Events.Registrable_init r cls in
  (truthy_data t = false → r' = r)
  ∧ (truthy_data t = true →
     Events.od_get r' t = Some cls
     ∧ (∀ t', t' ≠ t → Events.od_get r' t' = Events.od_get r t')
     ∧ Events.event_types r'
       = if decide (t ∈ Events.event_types r) then Events.event_types r
         else Events.event_types r ++ [t]).
Proof.
  cbv zeta. unfold Events.Registrable_init, Events.event_types. split; intros Ht; rewrite Ht.
  - done.
  - split; [apply od_get_set_eq |]. split; [| apply od_set_keys].
    intros t' Hne. by apply od_get_set_ne.
Qed.

(** X15, declaring [KeyEvent] and then [ClickEvent]. *)
Lemma registry_declaration_witness :
  let r := Events.Registrable_init [] Sample.KeyEvent in
  let r' := Events.Registrable_init r Sample.ClickEvent in
  Events.od_get r' (DStr "click") = Some Sample.ClickEvent
  ∧ (∀ t', t' ≠ DStr "click" → Events.od_get r' t' = Events.od_get r t')
  ∧ Events.event_types r'
    = if decide (DStr "click" ∈ Events.event_types r) then Events.event_types r
      else Events.event_types r ++ [DStr "click"].
Proof.
  exact (proj2 (registry_declaration (Events.Registrable_init [] Sample.KeyEvent)
                  Sample.ClickEvent) eq_refl).
Defined.

(** X16.  A subclass that declares no [type] of its own inherits the tag
    of its base and takes over the registry entry of the base: the tag
    then maps to the subclass, and [event_types()] is unchanged. *)
Theorem subclass_takes_over_entry (r : Events.registry) (base : eclass) (id : nat) :
  truthy_data (cls_type base) = true →
  let sub := Events.new_class id base None in
  let r1 := Events.Registrable_init r base in
  let r2 := Events.Registrable_init r1 sub in
  Events.od_get r1 (cls_type base) = Some base
  ∧ Events.od_get r2 (cls_type base) = Some sub
  ∧ Events.event_types r2 = Events.event_types r1.
Proof.
  intros Ht. cbv zeta. unfold Events.Registrable_init, Events.new_class, Events.event_types.
  simpl. rewrite Ht. split; [apply od_get_set_eq |]. split; [apply od_get_set_eq |].
  rewrite (od_set_keys (Events.od_set r _ _)). rewrite decide_True; [done |].
  rewrite od_set_keys. destruct (decide _); [done |]. apply elem_of_app. right. by left.
Qed.

(** X16, with a subclass of [KeyEvent]. *)
Lemma subclass_takes_over_entry_witness :
  let sub := Events.new_class 7 Sample.KeyEvent None in
  let r1 := Events.Registrable_init [] Sample.KeyEvent in
  let r2 := Events.Registrable_init r1 sub in
  Events.od_get r1 (DStr "key") = Some Sample.KeyEvent
  ∧ Events.od_get r2 (DStr "key") = Some sub
  ∧ Events.event_types r2 = Events.event_types r1.
Proof. exact (subclass_takes_over_entry [] Sample.KeyEvent 7 eq_refl). Defined.
